(** * discord.ext.oauth: a shallow embedding of the OAuth2 client and its models

    The development follows the three source files:
    - [models.py]  ([DiscordObject], [TokenResponse], [Guild], [User]),
    - [guild.py]   (the stand-alone [Guild] of partial guild payloads),
    - [client.py]  ([OAuth2Client]).

    Python objects decoded from JSON are values of [value]; a dictionary is a
    finite map from hashable keys to values.  Code that can raise returns a
    [result]; methods that mutate [self] or talk to the transport run in the
    state monad [M], whose state is the receiver object together with the log of
    requests handed to the transport. *)

From Stdlib Require Import ZArith String Ascii List DecimalString.
From stdpp Require Import base option gmap strings list fin_maps.

Local Open Scope string_scope.
Local Open Scope Z_scope.

Set Warnings "-register-all".

(** ** Python values *)

(** Hashable keys.  A JSON object only has [KStr] keys; [KTuple] is the key the
    subscription [d["id", 0]] builds. *)
Inductive atom :=
| AStr (s : string)
| AInt (n : Z).

Inductive key :=
| KStr (s : string)
| KTuple (items : list atom).

#[global] Instance atom_eq_dec : EqDecision atom.
Proof. solve_decision. Defined.

#[global] Instance key_eq_dec : EqDecision key.
Proof. solve_decision. Defined.

#[global] Instance atom_countable : Countable atom.
Proof.
  refine (inj_countable'
            (fun a => match a with AStr s => inl s | AInt n => inr n end)
            (fun x => match x with inl s => AStr s | inr n => AInt n end) _).
  by intros [].
Defined.

#[global] Instance key_countable : Countable key.
Proof.
  refine (inj_countable'
            (fun k => match k with KStr s => inl s | KTuple l => inr l end)
            (fun x => match x with inl s => KStr s | inr l => KTuple l end) _).
  by intros [].
Defined.

(** The objects the code handles: what a JSON decoder produces ([None], [bool],
    [int], [str], [list], [dict]) and tuples.  JSON numbers with a fraction are
    left out: the code never computes with them. *)
Inductive value :=
| VNone
| VBool (b : bool)
| VInt (n : Z)
| VStr (s : string)
| VList (l : list value)
| VTuple (l : list value)
| VDict (d : gmap key value).

Abbreviation dict := (gmap key value).

(** A decoded JSON object: every key is a string. *)
Definition json_object (d : dict) : Prop :=
  forall k, is_Some (d !! k) -> exists s, k = KStr s.

(** ** Exceptions and results *)

(** Modelled from the spec: [http.py] is not among the sources; its errors are
    the taxonomy of the error-handling section. *)
Inductive http_error :=
| TransportError
| RateLimitedError
| AuthError
| ApiError.

Inductive exn :=
| KeyError (k : key)
| TypeError
| AttributeError
| ValueError
| HTTPException (e : http_error).

Definition result (A : Type) : Type := exn + A.

Definition raise {A : Type} (e : exn) : result A := inl e.

#[global] Instance result_ret : MRet result := fun A x => inr x.
#[global] Instance result_bind : MBind result :=
  fun A B f m => match m with inl e => inl e | inr x => f x end.

Definition succeeds {A : Type} (r : result A) : bool :=
  match r with inl _ => false | inr _ => true end.

(** ** The run-time functions the code calls *)

(** Two text conversions of the Python run time are left open: [repr] of a
    container and the parsing done by [int] on a string.  Every statement
    below holds whatever they are. *)
Class Runtime := {
  repr_container : value -> string;
  int_of_str : string -> option Z
}.

Definition str_of_Z (n : Z) : string := NilZero.string_of_int (Z.to_int n).

(** [str(v)], as [str.format] applies it to a field. *)
Definition py_str `{Runtime} (v : value) : string :=
  match v with
  | VNone => "None"
  | VBool true => "True"
  | VBool false => "False"
  | VInt n => str_of_Z n
  | VStr s => s
  | VList _ | VTuple _ | VDict _ => repr_container v
  end.

(** [int(v)] *)
Definition py_int `{Runtime} (v : value) : result Z :=
  match v with
  | VInt n => mret n
  | VBool b => mret (if b then 1 else 0)
  | VStr s => match int_of_str s with Some n => mret n | None => raise ValueError end
  | VNone | VList _ | VTuple _ | VDict _ => raise TypeError
  end.

(** Truth value of an object, as [not v] and [if v] test it. *)
Definition py_truthy (v : value) : bool :=
  match v with
  | VNone => false
  | VBool b => b
  | VInt n => negb (n =? 0)
  | VStr s => negb (String.eqb s "")
  | VList l | VTuple l => match l with [] => false | _ :: _ => true end
  | VDict d => negb (bool_decide (size d = 0%nat))
  end.

(** [v[k]] for a string or tuple subscript. *)
Definition py_getitem (v : value) (k : key) : result value :=
  match v with
  | VDict d => match d !! k with Some x => mret x | None => raise (KeyError k) end
  | VNone | VBool _ | VInt _ | VStr _ | VList _ | VTuple _ => raise TypeError
  end.

(** [v.get(k, default)] *)
Definition py_get (v : value) (k : key) (dflt : value) : result value :=
  match v with
  | VDict d => mret (default dflt (d !! k))
  | VNone | VBool _ | VInt _ | VStr _ | VList _ | VTuple _ => raise AttributeError
  end.

(** [v.startswith(p)]: only [str] has the method. *)
Definition py_startswith (v : value) (p : string) : result bool :=
  match v with
  | VStr s => mret (String.prefix p s)
  | VNone | VBool _ | VInt _ | VList _ | VTuple _ | VDict _ => raise AttributeError
  end.

Definition atom_value (a : atom) : value :=
  match a with AStr s => VStr s | AInt n => VInt n end.

Definition key_value (k : key) : value :=
  match k with KStr s => VStr s | KTuple l => VTuple (atom_value <$> l) end.

Fixpoint chars (s : string) : list value :=
  match s with
  | EmptyString => []
  | String c s' => VStr (String c EmptyString) :: chars s'
  end.

(** The items a [for] loop takes from [v].  A dictionary yields its keys; the
    map does not record insertion order, so they come in the map's order. *)
Definition py_iter (v : value) : result (list value) :=
  match v with
  | VList l | VTuple l => mret l
  | VStr s => mret (chars s)
  | VDict d => mret (key_value <$> (map_to_list d).*1)
  | VNone | VBool _ | VInt _ => raise TypeError
  end.

(** The conditional expression shared by the three constructors:
    [None if not h else "gif" if h.startswith("a") else "png"]. *)
Definition asset_format (h : value) : result (option string) :=
  if negb (py_truthy h) then mret None
  else b ← py_startswith h "a"; mret (Some (if b : bool then "gif" else "png")).

(** ** The transport ([http.py]) and the monad of methods *)

Record Route := { method : string; path : string }.

Record Request := {
  req_route : Route;
  req_data : option dict;
  req_headers : option dict
}.

(** A method runs on its receiver [S] and on the log of the requests made so
    far; an exception leaves the state reached when it was raised. *)
Definition M (S A : Type) : Type := S * list Request -> result A * (S * list Request).

#[global] Instance M_ret {S} : MRet (M S) := fun A x st => (inr x, st).
#[global] Instance M_bind {S} : MBind (M S) :=
  fun A B f m st =>
    match m st with
    | (inl e, st') => (inl e, st')
    | (inr x, st') => f x st'
    end.

Definition lift {S A} (r : result A) : M S A := fun st => (r, st).
Definition get_self {S} : M S S := fun st => (inr st.1, st).
Definition set_self {S} (s : S) : M S unit := fun st => (inr tt, (s, st.2)).

(** Identity of an object, for a reference to it held by another object. *)
Definition object_ref := nat.

Module HTTPClient.

(** Modelled from the spec: [http.py] is not among the sources.  The transport
    performs the call, decodes the JSON response and raises typed errors; it
    holds the client configuration in [_state_info].  [respond] is what the
    network answers to a request, given the requests made before it. *)
Record t := mk {
  _state_info : dict;
  respond : list Request -> Request -> result value
}.

Definition request {S} (self : t) (route : Route) (data headers : option dict)
  : M S value :=
  fun st =>
    let rq := {| req_route := route; req_data := data; req_headers := headers |} in
    (respond self st.2 rq, (st.1, (st.2 ++ [rq])%list)).

End HTTPClient.

(** The headers [{"Authorization": "Bearer {}".format(access_token)}]. *)
Definition bearer `{Runtime} (access_token : value) : dict :=
  {[ KStr "Authorization" := VStr ("Bearer " +:+ py_str access_token) ]}.

(** ** models.py *)

Module TokenResponse.

Record t := mk {
  _data : value;
  access_token : value;
  token_type : value;
  expires_in : value;
  refresh_token : value;
  scope : value
}.

Definition __init__ (data : value) : result t :=
  access_token ← py_getitem data (KStr "access_token");
  token_type ← py_getitem data (KStr "token_type");
  expires_in ← py_getitem data (KStr "expires_in");
  refresh_token ← py_getitem data (KStr "refresh_token");
  scope ← py_getitem data (KStr "scope");
  mret (mk data access_token token_type expires_in refresh_token scope).

(** [DiscordObject.json], inherited. *)
Definition json (self : t) : value := _data self.

End TokenResponse.

Module Guild.

Record t := mk {
  _data : value;
  _icon_hash : value;
  _icon_format : option string;
  user : object_ref;
  id : value;
  name : value;
  icon_url : option string;
  is_user_owner : value;
  features : value
}.

Definition __init__ `{Runtime} (data : value) (user : object_ref) : result t :=
  _icon_hash ← py_get data (KStr "icon") VNone;
  _icon_format ← asset_format _icon_hash;
  id ← py_getitem data (KTuple [AStr "id"; AInt 0]);
  name ← py_getitem data (KStr "name");
  let icon_url :=
    match _icon_format with
    | Some fmt =>
        Some ("https://cdn.discordapp.com/icons/" +:+ py_str id +:+ "/"
              +:+ py_str _icon_hash +:+ "." +:+ fmt)
    | None => None
    end in
  is_user_owner ← py_get data (KStr "owner") VNone;
  features ← py_get data (KStr "features") (VList []);
  mret (mk data _icon_hash _icon_format user id name icon_url is_user_owner features).

Definition json (self : t) : value := _data self.

End Guild.

Module User.

Record t := mk {
  _data : value;
  _http : HTTPClient.t;
  _acr : TokenResponse.t;
  _avatar_hash : value;
  _avatar_format : option string;
  id : value;
  name : value;
  avatar_url : option string;
  discriminator : value;
  mfa_enabled : value;
  email : value;
  verified : value;
  guilds : list Guild.t
}.

(** [acr] is a [TokenResponse] (left) or any other object (right), told apart
    by [isinstance]. *)
Definition __init__ `{Runtime} (http : HTTPClient.t) (data : value)
    (acr : TokenResponse.t + value) : result t :=
  _acr ← match acr with
         | inl tr => mret tr
         | inr v => TokenResponse.__init__ v
         end;
  _avatar_hash ← py_getitem data (KStr "avatar");
  _avatar_format ← asset_format _avatar_hash;
  id ← py_getitem data (KStr "id");
  name ← py_getitem data (KStr "username");
  let avatar_url :=
    if negb (py_truthy _avatar_hash) then None
    else Some ("https://cdn.discordapp.com/avatars/" +:+ py_str id +:+ "/"
               +:+ py_str _avatar_hash +:+ "."
               +:+ match _avatar_format with Some fmt => fmt | None => "None" end) in
  discriminator ← py_getitem data (KStr "discriminator");
  mfa_enabled ← py_get data (KStr "mfa_enabled") VNone;
  email ← py_get data (KStr "email") VNone;
  verified ← py_get data (KStr "verified") VNone;
  mret (mk data http _acr _avatar_hash _avatar_format id name avatar_url
          discriminator mfa_enabled email verified []).

Definition json (self : t) : value := _data self.

Definition access_token (self : t) : value := TokenResponse.access_token (_acr self).
Definition refresh_token (self : t) : value := TokenResponse.refresh_token (_acr self).

(** The two attribute assignments of the methods: [self._acr = tr] and
    [self.guilds = gs]. *)
Definition with_acr (self : t) (tr : TokenResponse.t) : t :=
  mk (_data self) (_http self) tr (_avatar_hash self) (_avatar_format self)
     (id self) (name self) (avatar_url self) (discriminator self)
     (mfa_enabled self) (email self) (verified self) (guilds self).

Definition with_guilds (self : t) (gs : list Guild.t) : t :=
  mk (_data self) (_http self) (_acr self) (_avatar_hash self) (_avatar_format self)
     (id self) (name self) (avatar_url self) (discriminator self)
     (mfa_enabled self) (email self) (verified self) gs.

Definition set_acr (tr : TokenResponse.t) : M t unit :=
  self ← get_self; set_self (with_acr self tr).

Definition set_guilds (gs : list Guild.t) : M t unit :=
  self ← get_self; set_self (with_guilds self gs).

Definition refresh_request_data (client_id client_secret refresh_token : value) : dict :=
  list_to_map [ (KStr "client_id", client_id);
                (KStr "client_secret", client_secret);
                (KStr "grant_type", VStr "refresh_token");
                (KStr "refresh_token", refresh_token) ].

Definition refresh : M t TokenResponse.t :=
  self ← get_self;
  let refresh_token := refresh_token self in
  let route := {| method := "POST"; path := "/oauth2/token" |} in
  let state_info := VDict (HTTPClient._state_info (_http self)) in
  client_id ← lift (py_getitem state_info (KStr "client_id"));
  client_secret ← lift (py_getitem state_info (KStr "client_secret"));
  let post_data := refresh_request_data client_id client_secret refresh_token in
  request_data ← HTTPClient.request (_http self) route (Some post_data) None;
  token_resp ← lift (TokenResponse.__init__ request_data);
  set_acr token_resp;;
  mret token_resp.

(** The loop [for array in resp: self.guilds.append(Guild(data=array, user=self))]. *)
Fixpoint fill_guilds `{Runtime} (this : object_ref) (items : list value) : M t unit :=
  match items with
  | [] => mret tt
  | array :: rest =>
      g ← lift (Guild.__init__ array this);
      self ← get_self;
      set_guilds (guilds self ++ [g])%list;;
      fill_guilds this rest
  end.

(** [this] is the identity of the receiver, handed to each [Guild] as its
    [user]. *)
Definition fetch_guilds `{Runtime} (this : object_ref) (refresh : bool)
  : M t (list Guild.t) :=
  self ← get_self;
  if negb refresh && negb (bool_decide (guilds self = [])) then mret (guilds self)
  else
    let route := {| method := "GET"; path := "/users/@me/guilds" |} in
    let headers := bearer (access_token self) in
    resp ← HTTPClient.request (_http self) route None (Some headers);
    set_guilds [];;
    items ← lift (py_iter resp);
    fill_guilds this items;;
    self ← get_self;
    mret (guilds self).

Definition __str__ `{Runtime} (self : t) : string :=
  py_str (name self) +:+ "#" +:+ py_str (discriminator self).

Definition __repr__ `{Runtime} (self : t) : string :=
  "<User id=" +:+ py_str (id self) +:+ " name=" +:+ py_str (name self)
  +:+ " discriminator=" +:+ py_str (discriminator self)
  +:+ " verified=" +:+ py_str (verified self) +:+ ">".

End User.

(** [bool] is a kind of [int]: the number an object stands for in arithmetic
    and in comparisons. *)
Definition as_number (v : value) : option Z :=
  match v with
  | VInt n => Some n
  | VBool b => Some (if b then 1 else 0)
  | VNone | VStr _ | VList _ | VTuple _ | VDict _ => None
  end.

(** [a == b] *)
Fixpoint py_eq (a b : value) {struct a} : bool :=
  match a, b with
  | VNone, VNone => true
  | VStr s, VStr t => String.eqb s t
  | (VInt _ | VBool _), (VInt _ | VBool _) =>
      match as_number a, as_number b with
      | Some x, Some y => x =? y
      | _, _ => false
      end
  | VList l, VList m | VTuple l, VTuple m =>
      (fix go (l m : list value) : bool :=
         match l, m with
         | [], [] => true
         | x :: l', y :: m' => py_eq x y && go l' m'
         | _, _ => false
         end) l m
  | VDict d, VDict e =>
      bool_decide (size d = size e) &&
      map_fold (fun k x acc =>
                  acc && match e !! k with Some y => py_eq x y | None => false end)
        true d
  | _, _ => false
  end.

(** [v >> k] for a shift [k] that is not negative. *)
Definition py_rshift (v : value) (k : Z) : result Z :=
  match as_number v with
  | Some n => mret (Z.shiftr n k)
  | None => raise TypeError
  end.

Module DiscordObject.

Record t := mk {
  _data : value;
  id : value
}.

Definition __init__ (data : value) : result t :=
  id ← py_getitem data (KStr "id");
  mret (mk data id).

(** An object whose [id] attribute the methods read: an instance of the class
    or of a subclass, or any other operand of a comparison.  The read raises
    when no constructor has set the attribute. *)
Class HasId (A : Type) := attr_id : A -> result value.

#[global] Instance base_id : HasId t := fun self => mret (id self).
#[global] Instance User_id : HasId User.t := fun self => mret (User.id self).
#[global] Instance Guild_id : HasId Guild.t := fun self => mret (Guild.id self).
(** [TokenResponse.__init__] sets no [id]. *)
#[global] Instance TokenResponse_id : HasId TokenResponse.t :=
  fun _ => raise AttributeError.

Definition __eq__ {A B} `{HasId A, HasId B} (self : A) (other : B) : result bool :=
  o ← attr_id other;
  i ← attr_id self;
  mret (py_eq o i).

Definition __ne__ {A B} `{HasId A, HasId B} (self : A) (other : B) : result bool :=
  b ← __eq__ self other;
  mret (negb b).

Definition __hash__ {A} `{HasId A} (self : A) : result Z :=
  i ← attr_id self;
  py_rshift i 22.

Definition json (self : t) : value := _data self.

End DiscordObject.

(** ** guild.py *)

Module guild.
Module Guild.

Record t := mk {
  _data : value;
  _icon_hash : value;
  _icon_format : option string;
  user : object_ref;
  id : Z;
  name : value;
  icon_url : option string;
  is_user_owner : value;
  features : value
}.

Definition __init__ `{Runtime} (data : value) (user : object_ref) : result t :=
  _icon_hash ← py_get data (KStr "icon") VNone;
  _icon_format ← asset_format _icon_hash;
  id ← (py_get data (KStr "id") (VInt 0) ≫= py_int);
  name ← py_get data (KStr "name") VNone;
  let icon_url :=
    match _icon_format with
    | Some fmt =>
        Some ("https://cdn.discordapp.com/icons/" +:+ str_of_Z id +:+ "/"
              +:+ py_str _icon_hash +:+ "." +:+ fmt)
    | None => None
    end in
  is_user_owner ← py_get data (KStr "owner") VNone;
  features ← py_get data (KStr "features") VNone;
  mret (mk data _icon_hash _icon_format user id name icon_url is_user_owner features).

End Guild.
End guild.

(** ** client.py *)

Definition DISCORD_URL : string := "https://discord.com".

Module OAuth2Client.

Record t := mk {
  _id : Z;
  _auth : string;
  _redirect : string;
  _scopes : option string;
  http : HTTPClient.t
}.

(** [str.format] of an optional string: [None] prints as the word. *)
Definition str_of_option (o : option string) : string :=
  match o with Some s => s | None => "None" end.

Definition value_of_option (o : option string) : value :=
  match o with Some s => VStr s | None => VNone end.

(** [fresh] is the transport [HTTPClient()] returns; the constructor updates
    its [_state_info] in place. *)
Definition __init__ (client_id : Z) (client_secret redirect_uri : string)
    (scopes : option (list string)) (fresh : HTTPClient.t) : t :=
  let _scopes := match scopes with
                 | Some l => Some (String.concat " " l)
                 | None => None
                 end in
  let info : dict :=
    list_to_map [ (KStr "client_id", VInt client_id);
                  (KStr "client_secret", VStr client_secret);
                  (KStr "redirect_uri", VStr redirect_uri);
                  (KStr "scopes", value_of_option _scopes) ] in
  mk client_id client_secret redirect_uri _scopes
     (HTTPClient.mk (info ∪ HTTPClient._state_info fresh) (HTTPClient.respond fresh)).

(** [if state:] holds for a string that is given and not empty. *)
Definition given (o : option string) : bool :=
  match o with Some s => py_truthy (VStr s) | None => false end.

Definition auth (self : t) (state prompt : option string) : string :=
  let client_id := "client_id=" +:+ str_of_Z (_id self) in
  let redirect_uri := "redirect_uri=" +:+ _redirect self in
  let scopes := "scope=" +:+ str_of_option (_scopes self) in
  let response_type := "response_type=code" in
  let url := DISCORD_URL +:+ "/api/oauth2/authorize?" +:+ client_id +:+ "&"
             +:+ redirect_uri +:+ "&" +:+ scopes +:+ "&" +:+ response_type in
  let url := if given state then url +:+ "&state=" +:+ str_of_option state else url in
  let url := if given prompt then url +:+ "&prompt=" +:+ str_of_option prompt else url in
  url.

Definition token_request_data (self : t) (code : string) : dict :=
  let post_data : dict :=
    list_to_map [ (KStr "client_id", VInt (_id self));
                  (KStr "client_secret", VStr (_auth self));
                  (KStr "grant_type", VStr "authorization_code");
                  (KStr "code", VStr code);
                  (KStr "redirect_uri", VStr (_redirect self)) ] in
  match _scopes self with
  | Some s => <[KStr "scope" := VStr s]> post_data
  | None => post_data
  end.

Definition exchange_code (code : string) : M t TokenResponse.t :=
  self ← get_self;
  let route := {| method := "POST"; path := "/oauth2/token" |} in
  resp ← HTTPClient.request (http self) route (Some (token_request_data self code)) None;
  lift (TokenResponse.__init__ resp).

Definition refresh_token (refresh_token : string) : M t value :=
  self ← get_self;
  let route := {| method := "POST"; path := "/oauth2/token" |} in
  let post_data : dict :=
    list_to_map [ (KStr "client_id", VInt (_id self));
                  (KStr "client_secret", VStr (_auth self));
                  (KStr "grant_type", VStr "refresh_token");
                  (KStr "refresh_token", VStr refresh_token) ] in
  HTTPClient.request (http self) route (Some post_data) None.

(** [token] is a [TokenResponse] (left) or an access-token string (right). *)
Definition identify `{Runtime} (token : TokenResponse.t + string) : M t User.t :=
  self ← get_self;
  let access_token :=
    match token with
    | inl tr => TokenResponse.access_token tr
    | inr s => VStr s
    end in
  let route := {| method := "GET"; path := "/users/@me" |} in
  let headers := bearer access_token in
  resp ← HTTPClient.request (http self) route None (Some headers);
  lift (User.__init__ (http self) resp
          match token with inl tr => inl tr | inr s => inr (VStr s) end).

Definition guilds `{Runtime} (token : value) : M t value :=
  self ← get_self;
  access_token ← lift (py_getitem token (KStr "access_token"));
  let route := {| method := "GET"; path := "/users/@me/guilds" |} in
  let headers := bearer access_token in
  HTTPClient.request (http self) route None (Some headers).

End OAuth2Client.

(** ** Sample objects

    Concrete inputs on which the statements below are evaluated. *)

Fixpoint digits_value (s : string) (acc : Z) : option Z :=
  match s with
  | EmptyString => Some acc
  | String c s' =>
      let n := Z.of_nat (nat_of_ascii c) - 48 in
      if (0 <=? n) && (n <=? 9) then digits_value s' (10 * acc + n) else None
  end.

(** Plain decimal numerals only; none of the samples prints a container. *)
Definition sample_runtime : Runtime := {|
  repr_container := fun _ => "";
  int_of_str := fun s => match s with
                         | EmptyString => None
                         | String _ _ => digits_value s 0
                         end
|}.

Definition token_payload (access refresh : string) : dict :=
  list_to_map [ (KStr "access_token", VStr access);
                (KStr "token_type", VStr "Bearer");
                (KStr "expires_in", VInt 604800);
                (KStr "refresh_token", VStr refresh);
                (KStr "scope", VStr "identify guilds") ].

Definition sample_token (access refresh : string) : TokenResponse.t :=
  TokenResponse.mk (VDict (token_payload access refresh)) (VStr access) (VStr "Bearer")
    (VInt 604800) (VStr refresh) (VStr "identify guilds").

Definition user_payload (avatar : value) : dict :=
  list_to_map [ (KStr "id", VStr "42");
                (KStr "username", VStr "wumpus");
                (KStr "avatar", avatar);
                (KStr "discriminator", VStr "0001") ].

Definition guild_payload (icon : value) : dict :=
  list_to_map [ (KStr "id", VStr "7");
                (KStr "name", VStr "lounge");
                (KStr "icon", icon);
                (KStr "owner", VBool false) ].

(** A transport that gives the same answer to every request. *)
Definition fixed_transport (answer : result value) : HTTPClient.t :=
  HTTPClient.mk ∅ (fun _ _ => answer).

Definition sample_client (answer : result value) : OAuth2Client.t :=
  OAuth2Client.__init__ 123 "s" "https://a.test/cb" (Some ["identify"; "guilds"])
    (fixed_transport answer).

Definition sample_user (answer : result value) (gs : list Guild.t) : User.t :=
  User.mk (VDict (user_payload VNone)) (OAuth2Client.http (sample_client answer))
    (sample_token "old" "r0") VNone None (VStr "42") (VStr "wumpus") None
    (VStr "0001") VNone VNone VNone gs.

(** A user whose token endpoint answers with a fresh token payload. *)
Definition refreshing_user : User.t :=
  sample_user (inr (VDict (token_payload "t1" "r1"))) [].

Definition sample_guild : Guild.t :=
  Guild.mk (VDict (guild_payload VNone)) VNone None 0%nat (VStr "7") (VStr "lounge")
    None (VBool false) (VList []).

(** * Properties *)

(** ** TokenResponse *)

Definition required_fields : list string :=
  ["access_token"; "token_type"; "expires_in"; "refresh_token"; "scope"].

Lemma getitem_dict_Some (d : dict) (k : key) (x : value) :
  d !! k = Some x -> py_getitem (VDict d) k = inr x.
Proof. intros E. unfold py_getitem. by rewrite E. Qed.

Lemma getitem_dict_None (d : dict) (k : key) :
  d !! k = None -> py_getitem (VDict d) k = inl (KeyError k).
Proof. intros E. unfold py_getitem. by rewrite E. Qed.

Lemma required_fields_cases (P : string -> Prop) :
  (forall f, f ∈ required_fields -> P f) <->
  P "access_token" /\ P "token_type" /\ P "expires_in" /\ P "refresh_token" /\ P "scope".
Proof.
  unfold required_fields. split.
  - intros HP. repeat split; apply HP; repeat constructor.
  - intros (H1 & H2 & H3 & H4 & H5) f Hf.
    repeat (apply elem_of_cons in Hf as [-> | Hf]; [assumption |]).
    by apply elem_of_nil in Hf.
Qed.

(** C5.  A token payload that holds the five required fields is accepted, and
    [json()] gives back the very payload the object was built from. *)
Theorem TokenResponse_json_roundtrip (d : dict) :
  (forall f, f ∈ required_fields -> is_Some (d !! KStr f)) ->
  exists tr,
    TokenResponse.__init__ (VDict d) = inr tr /\
    TokenResponse.json tr = VDict d /\
    d !! KStr "access_token" = Some (TokenResponse.access_token tr) /\
    d !! KStr "token_type" = Some (TokenResponse.token_type tr) /\
    d !! KStr "expires_in" = Some (TokenResponse.expires_in tr) /\
    d !! KStr "refresh_token" = Some (TokenResponse.refresh_token tr) /\
    d !! KStr "scope" = Some (TokenResponse.scope tr).
Proof.
  intros Hall. apply required_fields_cases in Hall
    as ([a Ea] & [t Et] & [x Ex] & [r Er] & [s Es]).
  exists (TokenResponse.mk (VDict d) a t x r s).
  unfold TokenResponse.__init__.
  rewrite (getitem_dict_Some _ _ _ Ea), (getitem_dict_Some _ _ _ Et),
    (getitem_dict_Some _ _ _ Ex), (getitem_dict_Some _ _ _ Er),
    (getitem_dict_Some _ _ _ Es).
  simpl. by repeat split.
Qed.

Ltac in_fields := unfold required_fields; repeat constructor.

(** One subscription of the constructor: the field is there and the
    construction goes on, or it is the missing one. *)
Ltac field_case d f :=
  let x := fresh "x" in
  let E := fresh "E" in
  destruct (d !! KStr f) as [x|] eqn:E;
  [ rewrite (getitem_dict_Some _ _ _ E)
  | exists f; rewrite (getitem_dict_None _ _ E);
    split; [in_fields | by split] ].

(** C6.  A token payload that lacks one of the five required fields is refused
    with a [KeyError] naming a required field that is missing: no object is
    built, and no field is defaulted to [None]. *)
Theorem TokenResponse_missing_field (d : dict) :
  (exists f, f ∈ required_fields /\ d !! KStr f = None) ->
  exists f,
    f ∈ required_fields /\ d !! KStr f = None /\
    TokenResponse.__init__ (VDict d) = inl (KeyError (KStr f)).
Proof.
  intros (f0 & Hin & Hnone).
  unfold TokenResponse.__init__.
  field_case d "access_token".
  field_case d "token_type".
  field_case d "expires_in".
  field_case d "refresh_token".
  field_case d "scope".
  exfalso. unfold required_fields in Hin.
  repeat (apply elem_of_cons in Hin as [-> | Hin]; [congruence |]).
  by apply elem_of_nil in Hin.
Qed.

Lemma TokenResponse_json_roundtrip_witness :
  exists tr,
    TokenResponse.__init__ (VDict (token_payload "t0" "r0")) = inr tr /\
    TokenResponse.json tr = VDict (token_payload "t0" "r0") /\
    token_payload "t0" "r0" !! KStr "access_token" = Some (TokenResponse.access_token tr) /\
    token_payload "t0" "r0" !! KStr "token_type" = Some (TokenResponse.token_type tr) /\
    token_payload "t0" "r0" !! KStr "expires_in" = Some (TokenResponse.expires_in tr) /\
    token_payload "t0" "r0" !! KStr "refresh_token" = Some (TokenResponse.refresh_token tr) /\
    token_payload "t0" "r0" !! KStr "scope" = Some (TokenResponse.scope tr).
Proof.
  apply (TokenResponse_json_roundtrip (token_payload "t0" "r0")).
  apply required_fields_cases. repeat split; eexists; reflexivity.
Defined.

Lemma TokenResponse_missing_field_witness :
  exists f,
    f ∈ required_fields /\
    delete (KStr "expires_in") (token_payload "t0" "r0") !! KStr f = None /\
    TokenResponse.__init__ (VDict (delete (KStr "expires_in") (token_payload "t0" "r0")))
      = inl (KeyError (KStr f)).
Proof.
  apply (TokenResponse_missing_field (delete (KStr "expires_in") (token_payload "t0" "r0"))).
  exists "expires_in". split; [in_fields | reflexivity].
Defined.

(** ** Asset URLs *)

Lemma bind_inr {A B} (m : result A) (f : A -> result B) (y : B) :
  m ≫= f = inr y -> exists x, m = inr x /\ f x = inr y.
Proof. destruct m as [e|x]; simpl; [discriminate | eauto]. Qed.

(** Unfolds the next statement of a constructor that is known to return. *)
Ltac next_stmt H x E :=
  apply bind_inr in H as (x & E & H).

(** The URL the constructors are after: none for a hash that is [None], empty
    or otherwise false, else the CDN path with [gif] for a hash that starts
    with the letter [a] and [png] for any other. *)
Definition asset_ext (hash : string) : string :=
  if String.prefix "a" hash then "gif" else "png".

Definition asset_url (kind id : string) (h : value) : option string :=
  match h with
  | VStr (String _ _ as hash) =>
      Some ("https://cdn.discordapp.com/" +:+ kind +:+ "/" +:+ id +:+ "/" +:+ hash
            +:+ "." +:+ asset_ext hash)
  | _ => None
  end.

(** Text after the last dot of [s]. *)
Fixpoint after_last_dot (s cur : string) : string :=
  match s with
  | EmptyString => cur
  | String c s' =>
      if Ascii.eqb c "." then after_last_dot s' s' else after_last_dot s' cur
  end.

Definition extension (url : string) : string := after_last_dot url "".

Lemma asset_format_inr (h : value) (fmt : option string) :
  asset_format h = inr fmt ->
  (py_truthy h = false /\ fmt = None) \/
  (exists c s, h = VStr (String c s) /\ fmt = Some (asset_ext (String c s))).
Proof.
  unfold asset_format.
  destruct h as [|b|n|s|l|l|d]; simpl;
    try (destruct (negb _) eqn:T; simpl; [| discriminate];
         apply negb_true_iff in T; intros [= <-]; by left).
  - intros [= <-]. by left.
  - destruct s as [|c s]; simpl.
    + intros [= <-]. by left.
    + intros [= <-]. right. by exists c, s.
Qed.

Lemma after_last_dot_skip (a b e : string) :
  (forall cur, after_last_dot b cur = e) ->
  forall cur, after_last_dot (a +:+ b) cur = e.
Proof.
  intros Hb. induction a as [|c a IH]; intros cur; simpl; [apply Hb |].
  destruct (Ascii.eqb c "."); apply IH.
Qed.

Lemma asset_url_extension (kind id : string) (c : ascii) (s : string) :
  option_map extension (asset_url kind id (VStr (String c s)))
  = Some (asset_ext (String c s)).
Proof.
  cbn [asset_url option_map]. f_equal. unfold extension.
  do 6 apply after_last_dot_skip.
  intros cur. unfold asset_ext. by destruct (String.prefix _ _).
Qed.

(** C1 (as the code has it).  A [User] that is built has [avatar_url] equal to
    [asset_url] of the payload's ["avatar"] entry, and a [Guild] of [guild.py]
    has [icon_url] equal to [asset_url] of its ["icon"] entry, [None] when the
    key is missing: no URL for a hash that is [None] or empty, else the CDN URL
    with extension [gif] when the hash starts with [a] (["a_abc123"], and
    ["abc123"] too) and [png] otherwise (["bc123"]). *)
Theorem asset_url_derivation `{Runtime} :
  (forall http data acr u,
      User.__init__ http data acr = inr u ->
      exists h, py_getitem data (KStr "avatar") = inr h /\
        py_getitem data (KStr "id") = inr (User.id u) /\
        User.avatar_url u = asset_url "avatars" (py_str (User.id u)) h) /\
  (forall data user g,
      guild.Guild.__init__ data user = inr g ->
      exists h, py_get data (KStr "icon") VNone = inr h /\
        py_get data (KStr "id") (VInt 0) ≫= py_int = inr (guild.Guild.id g) /\
        guild.Guild.icon_url g = asset_url "icons" (str_of_Z (guild.Guild.id g)) h) /\
  (forall kind id,
      asset_url kind id VNone = None /\
      asset_url kind id (VStr "") = None /\
      option_map extension (asset_url kind id (VStr "a_abc123")) = Some "gif" /\
      option_map extension (asset_url kind id (VStr "abc123")) = Some "gif" /\
      option_map extension (asset_url kind id (VStr "bc123")) = Some "png").
Proof.
  split; [| split].
  - intros http data acr u Hu. unfold User.__init__ in Hu.
    next_stmt Hu tr Etr. next_stmt Hu h Eh. next_stmt Hu fmt Efmt.
    next_stmt Hu i Ei. next_stmt Hu nm Enm. next_stmt Hu dc Edc.
    next_stmt Hu mfa Emfa. next_stmt Hu em Eem. next_stmt Hu vf Evf.
    injection Hu as <-. simpl. exists h. do 2 (split; [done |]).
    apply asset_format_inr in Efmt as [[T ->] | (c & s & -> & ->)]; simpl.
    + rewrite T. destruct h as [|?|?|[|? ?]|?|?|?]; done.
    + done.
  - intros data user g Hg. unfold guild.Guild.__init__ in Hg.
    next_stmt Hg h Eh. next_stmt Hg fmt Efmt. next_stmt Hg i Ei.
    next_stmt Hg nm Enm. next_stmt Hg ow Eow. next_stmt Hg ft Eft.
    injection Hg as <-. simpl. exists h. do 2 (split; [done |]).
    apply asset_format_inr in Efmt as [[T ->] | (c & s & -> & ->)]; simpl.
    + destruct h as [|?|?|[|? ?]|?|?|?]; done.
    + done.
  - intros kind id. repeat split; apply asset_url_extension.
Qed.

Lemma asset_url_derivation_witness :
  (exists h, py_getitem (VDict (user_payload (VStr "a_abc123"))) (KStr "avatar") = inr h /\
     py_getitem (VDict (user_payload (VStr "a_abc123"))) (KStr "id") = inr (VStr "42") /\
     Some "https://cdn.discordapp.com/avatars/42/a_abc123.gif"
       = asset_url "avatars" "42" h) /\
  (exists h, py_get (VDict (guild_payload VNone)) (KStr "icon") VNone = inr h /\
     py_get (VDict (guild_payload VNone)) (KStr "id") (VInt 0) ≫= @py_int sample_runtime
       = inr 7 /\
     None = asset_url "icons" (str_of_Z 7) h).
Proof.
  split.
  - exact (proj1 (@asset_url_derivation sample_runtime)
             (fixed_transport (inl TypeError)) (VDict (user_payload (VStr "a_abc123")))
             (inl (sample_token "t0" "r0")) _ eq_refl).
  - exact (proj1 (proj2 (@asset_url_derivation sample_runtime))
             (VDict (guild_payload VNone)) 0%nat _ eq_refl).
Defined.

(** C1 as worded fails on the hash ["abc123"]: it starts with [a], so both
    constructors give the extension [gif], not [png]. *)
Lemma abc123_is_not_png :
  (exists u url,
      @User.__init__ sample_runtime (fixed_transport (inl TypeError))
        (VDict (user_payload (VStr "abc123"))) (inl (sample_token "t0" "r0")) = inr u /\
      User.avatar_url u = Some url /\ extension url = "gif" /\ extension url <> "png") /\
  (exists g url,
      @guild.Guild.__init__ sample_runtime (VDict (guild_payload (VStr "abc123"))) 0%nat
        = inr g /\
      guild.Guild.icon_url g = Some url /\ extension url = "gif" /\ extension url <> "png").
Proof.
  split; do 2 eexists; (split; [reflexivity |]); (split; [reflexivity |]);
    (split; [reflexivity | discriminate]).
Qed.

(** A [User] payload without an ["avatar"] key is refused, where a [Guild]
    payload without an ["icon"] key is accepted. *)
Lemma User_avatar_key_required `{Runtime} (http : HTTPClient.t) (d : dict)
    (tr : TokenResponse.t) :
  d !! KStr "avatar" = None ->
  User.__init__ http (VDict d) (inl tr) = inl (KeyError (KStr "avatar")).
Proof.
  intros E. unfold User.__init__. simpl. by rewrite E.
Qed.

(** ** identify *)

Definition identify_request (bearer_text : string) : Request :=
  {| req_route := {| method := "GET"; path := "/users/@me" |};
     req_data := None;
     req_headers := Some {[ KStr "Authorization" := VStr ("Bearer " +:+ bearer_text) ]} |}.

(** With a [TokenResponse] the method does what its signature says. *)
Lemma identify_token_response `{Runtime} (c : OAuth2Client.t) (tr : TokenResponse.t)
    (log : list Request) (resp : value) (u : User.t) :
  let rq := identify_request (py_str (TokenResponse.access_token tr)) in
  HTTPClient.respond (OAuth2Client.http c) log rq = inr resp ->
  User.__init__ (OAuth2Client.http c) resp (inl tr) = inr u ->
  OAuth2Client.identify (inl tr) (c, log) = (inr u, (c, (log ++ [rq])%list)) /\
  User._acr u = tr /\ User._data u = resp.
Proof.
  intros rq Hresp Hu. split.
  - unfold OAuth2Client.identify, HTTPClient.request, lift, get_self, mbind, M_bind.
    simpl. change (Build_Request _ _ _) with rq. rewrite Hresp. by rewrite Hu.
  - unfold User.__init__ in Hu. simpl in Hu.
    next_stmt Hu h Eh. next_stmt Hu fmt Efmt.
    next_stmt Hu i Ei. next_stmt Hu nm Enm. next_stmt Hu dc Edc.
    next_stmt Hu mfa Emfa. next_stmt Hu em Eem. next_stmt Hu vf Evf.
    by injection Hu as <-.
Qed.

(** C2 (where the code departs from it).  Called with a raw access-token
    string, [identify] sends [GET /users/@me] with [Authorization: Bearer s],
    and then never returns a [User]: the transport's error is passed on, and a
    successful response ends in a [TypeError], because [User.__init__] hands
    the string to [TokenResponse], which subscripts it with ["access_token"]. *)
Theorem identify_raw_string_raises `{Runtime} (c : OAuth2Client.t) (s : string)
    (log : list Request) :
  OAuth2Client.identify (inr s) (c, log)
  = (match HTTPClient.respond (OAuth2Client.http c) log (identify_request s) with
     | inl e => inl e
     | inr _ => inl TypeError
     end, (c, (log ++ [identify_request s])%list)).
Proof.
  unfold OAuth2Client.identify, HTTPClient.request, lift, get_self, mbind, M_bind.
  simpl. change (Build_Request _ _ _) with (identify_request s).
  by destruct (HTTPClient.respond _ _ _).
Qed.

Example identify_raw_string_sample :
  (@OAuth2Client.identify sample_runtime (inr "t0")
     (sample_client (inr (VDict (user_payload VNone))), [])).1 = inl TypeError.
Proof. reflexivity. Qed.

(** ** The guild cache *)

Definition guilds_request `{Runtime} (u : User.t) : Request :=
  {| req_route := {| method := "GET"; path := "/users/@me/guilds" |};
     req_data := None;
     req_headers := Some (bearer (User.access_token u)) |}.

(** What [fetch_guilds] does once the response is in: the cache is emptied,
    then filled item by item. *)
Definition refill `{Runtime} (this : object_ref) (resp : value)
    (st : User.t * list Request) : result (list Guild.t) * (User.t * list Request) :=
  let st0 := (User.with_guilds st.1 [], st.2) in
  match py_iter resp with
  | inl e => (inl e, st0)
  | inr items =>
      match User.fill_guilds this items st0 with
      | (inl e, st') => (inl e, st')
      | (inr _, st') => (inr (User.guilds st'.1), st')
      end
  end.

Lemma fetch_guilds_cached `{Runtime} (this : object_ref) (u : User.t) (log : list Request) :
  User.guilds u <> [] ->
  User.fetch_guilds this false (u, log) = (inr (User.guilds u), (u, log)).
Proof.
  intros Hne. unfold User.fetch_guilds, get_self, mbind, M_bind. simpl.
  by rewrite bool_decide_eq_false_2.
Qed.

Lemma fetch_guilds_run `{Runtime} (this : object_ref) (refresh : bool) (u : User.t)
    (log : list Request) :
  refresh = true \/ User.guilds u = [] ->
  User.fetch_guilds this refresh (u, log) =
    match HTTPClient.respond (User._http u) log (guilds_request u) with
    | inl e => (inl e, (u, (log ++ [guilds_request u])%list))
    | inr resp => refill this resp (u, (log ++ [guilds_request u])%list)
    end.
Proof.
  intros Hgo.
  unfold User.fetch_guilds, get_self, mbind, M_bind. simpl.
  assert (negb refresh && negb (bool_decide (User.guilds u = [])) = false) as ->.
  { destruct Hgo as [-> | ->]; [done |]. rewrite bool_decide_eq_true_2 by done.
    by rewrite andb_false_r. }
  unfold HTTPClient.request, User.set_guilds, set_self, get_self, lift, refill,
    mbind, M_bind. simpl.
  change (Build_Request _ _ _) with (guilds_request u).
  destruct (HTTPClient.respond _ _ _) as [e|resp]; [done |].
  destruct (py_iter resp) as [e|items]; [done |].
  by destruct (User.fill_guilds _ _ _) as [[e|[]] st'].
Qed.

Lemma fill_guilds_log `{Runtime} (this : object_ref) (items : list value) (u : User.t)
    (log : list Request) :
  (User.fill_guilds this items (u, log)).2.2 = log.
Proof.
  revert u. induction items as [|x items IH]; intros u; [done |].
  simpl. unfold lift, get_self, User.set_guilds, set_self, mbind, M_bind. simpl.
  destruct (Guild.__init__ x this) as [e|g]; [done |]. apply IH.
Qed.

Lemma fill_guilds_first_fails `{Runtime} (this : object_ref) (x : value)
    (rest : list value) (e : exn) (st : User.t * list Request) :
  Guild.__init__ x this = inl e ->
  User.fill_guilds this (x :: rest) st = (inl e, st).
Proof.
  intros Hx. simpl. unfold lift, mbind, M_bind. by rewrite Hx.
Qed.

Lemma refill_first_fails `{Runtime} (this : object_ref) (x : value)
    (rest : list value) (e : exn) (st : User.t * list Request) :
  Guild.__init__ x this = inl e ->
  refill this (VList (x :: rest)) st = (inl e, (User.with_guilds st.1 [], st.2)).
Proof.
  intros Hx. unfold refill.
  change (py_iter (VList (x :: rest))) with (inr (x :: rest) : result (list value)).
  cbv beta iota zeta. by rewrite (fill_guilds_first_fails this x rest e _ Hx).
Qed.

Lemma refill_log `{Runtime} (this : object_ref) (resp : value) (u : User.t)
    (log : list Request) :
  (refill this resp (u, log)).2.2 = log.
Proof.
  unfold refill. simpl. destruct (py_iter resp) as [e|items]; [done |].
  pose proof (fill_guilds_log this items (User.with_guilds u []) log) as Hlog.
  by destruct (User.fill_guilds _ _ _) as [[e|[]] st'].
Qed.

(** C3.  With [refresh=False] and an empty cache, [fetch_guilds] is the call
    with [refresh=True]: it hands the [GET /users/@me/guilds] request to the
    transport.  With [refresh=False] and a cache that is not empty it returns
    the cache as it is, changes nothing and makes no request. *)
Theorem fetch_guilds_cache `{Runtime} (this : object_ref) (u : User.t)
    (log : list Request) :
  (User.guilds u = [] ->
     User.fetch_guilds this false (u, log) = User.fetch_guilds this true (u, log) /\
     (User.fetch_guilds this false (u, log)).2.2 = (log ++ [guilds_request u])%list) /\
  (User.guilds u <> [] ->
     User.fetch_guilds this false (u, log) = (inr (User.guilds u), (u, log))).
Proof.
  split.
  - intros Hempty.
    rewrite (fetch_guilds_run this false) by auto.
    rewrite (fetch_guilds_run this true) by auto.
    split; [done |].
    destruct (HTTPClient.respond _ _ _) as [e|resp]; [done |]. apply refill_log.
  - apply fetch_guilds_cached.
Qed.

Lemma fetch_guilds_cache_witness :
  (@User.fetch_guilds sample_runtime 0%nat false
      (sample_user (inr (VList [])) [], [])
    = @User.fetch_guilds sample_runtime 0%nat true
        (sample_user (inr (VList [])) [], []) /\
   (@User.fetch_guilds sample_runtime 0%nat false
      (sample_user (inr (VList [])) [], [])).2.2
    = [@guilds_request sample_runtime (sample_user (inr (VList [])) [])]) /\
  @User.fetch_guilds sample_runtime 0%nat false
      (sample_user (inl (HTTPException AuthError)) [sample_guild], [])
    = (inr [sample_guild], (sample_user (inl (HTTPException AuthError)) [sample_guild], [])).
Proof.
  split.
  - exact (proj1 (@fetch_guilds_cache sample_runtime 0%nat
                    (sample_user (inr (VList [])) []) []) eq_refl).
  - apply (proj2 (@fetch_guilds_cache sample_runtime 0%nat
                    (sample_user (inl (HTTPException AuthError)) [sample_guild]) [])).
    discriminate.
Defined.

(** ** The [Guild] of models.py *)

Lemma json_object_empty : json_object ∅.
Proof. intros k [x Hx]. by rewrite lookup_empty in Hx. Qed.

Lemma json_object_insert (s : string) (v : value) (d : dict) :
  json_object d -> json_object (<[KStr s := v]> d).
Proof.
  intros Hd k Hk. destruct (decide (KStr s = k)) as [<- | Hne]; [by exists s |].
  rewrite lookup_insert_ne in Hk by done. by apply Hd.
Qed.

Lemma json_object_no_tuple (d : dict) (items : list atom) :
  json_object d -> d !! KTuple items = None.
Proof.
  intros Hd. destruct (d !! KTuple items) as [x|] eqn:E; [| done].
  destruct (Hd (KTuple items)) as [s Hs]; [by exists x | discriminate].
Qed.

(** The ["icon"] entries the constructor gets past: those that are false
    ([None], the empty string, ...) and the strings. *)
Definition icon_usable (h : value) : bool :=
  negb (py_truthy h) || match h with VStr _ => true | _ => false end.

Lemma asset_format_usable (h : value) :
  succeeds (asset_format h) = icon_usable h.
Proof.
  unfold asset_format, icon_usable.
  destruct h as [|b|n|s|l|l|d]; simpl; try done.
  - by destruct b.
  - by destruct (n =? 0).
  - by destruct (String.eqb s "").
  - by destruct l.
  - by destruct l.
  - by destruct (bool_decide _).
Qed.

Lemma asset_format_inl (h : value) (e : exn) :
  asset_format h = inl e -> e = AttributeError.
Proof.
  unfold asset_format. destruct (negb (py_truthy h)); [discriminate |].
  destruct h; cbv; congruence.
Qed.

Definition id_0 : key := KTuple [AStr "id"; AInt 0].

Lemma Guild_init_json_object `{Runtime} (d : dict) (user : object_ref) :
  json_object d ->
  Guild.__init__ (VDict d) user =
    inl (if icon_usable (default VNone (d !! KStr "icon"))
         then KeyError id_0 else AttributeError).
Proof.
  intros Hd. unfold Guild.__init__. simpl.
  rewrite <- asset_format_usable.
  destruct (asset_format _) as [e|fmt] eqn:Efmt; simpl.
  - by rewrite (asset_format_inl _ _ Efmt).
  - by rewrite (json_object_no_tuple _ _ Hd).
Qed.

(** C4 (as the code has it).  Built from a JSON object, the [Guild] of
    models.py always raises: the [KeyError] of the subscript [("id", 0)] when
    the ["icon"] entry is missing, false or a string, and an [AttributeError]
    before that when it is any other object.  So [fetch_guilds] raises on every
    response that is a list starting with a JSON object, and leaves the cache
    empty. *)
Theorem models_Guild_rejects_json_object `{Runtime} (d : dict) :
  json_object d ->
  (forall user,
      Guild.__init__ (VDict d) user =
        inl (if icon_usable (default VNone (d !! KStr "icon"))
             then KeyError id_0 else AttributeError)) /\
  (forall this refresh u log rest,
      refresh = true \/ User.guilds u = [] ->
      HTTPClient.respond (User._http u) log (guilds_request u)
        = inr (VList (VDict d :: rest)) ->
      User.fetch_guilds this refresh (u, log) =
        (inl (if icon_usable (default VNone (d !! KStr "icon"))
              then KeyError id_0 else AttributeError),
         (User.with_guilds u [], (log ++ [guilds_request u])%list))).
Proof.
  intros Hd. split.
  - intros user. by apply Guild_init_json_object.
  - intros this refresh u log rest Hgo Hresp.
    rewrite fetch_guilds_run by done. rewrite Hresp.
    by rewrite (refill_first_fails this _ rest _ _ (Guild_init_json_object d this Hd)).
Qed.

Lemma guild_payload_json_object (icon : value) : json_object (guild_payload icon).
Proof.
  unfold guild_payload. simpl.
  repeat apply json_object_insert. apply json_object_empty.
Qed.

Lemma models_Guild_rejects_json_object_witness :
  @Guild.__init__ sample_runtime (VDict (guild_payload (VStr "a_abc123"))) 0%nat
    = inl (KeyError id_0) /\
  @User.fetch_guilds sample_runtime 0%nat true
      (sample_user (inr (VList [VDict (guild_payload (VStr "a_abc123"))])) [sample_guild], [])
    = (inl (KeyError id_0),
       (sample_user (inr (VList [VDict (guild_payload (VStr "a_abc123"))])) [],
        [@guilds_request sample_runtime
           (sample_user (inr (VList [VDict (guild_payload (VStr "a_abc123"))])) [sample_guild])])).
Proof.
  pose proof (@models_Guild_rejects_json_object sample_runtime
                (guild_payload (VStr "a_abc123"))
                (guild_payload_json_object (VStr "a_abc123"))) as [Hinit Hfetch].
  split.
  - exact (Hinit 0%nat).
  - exact (Hfetch 0%nat true
             (sample_user (inr (VList [VDict (guild_payload (VStr "a_abc123"))])) [sample_guild])
             [] [] (or_introl eq_refl) eq_refl).
Defined.

(** C4 as worded fails on a JSON object whose ["icon"] is a number: the
    constructor stops at [startswith] with an [AttributeError], before any key
    is looked up. *)
Lemma numeric_icon_is_no_key_error :
  json_object (guild_payload (VInt 5)) /\
  @Guild.__init__ sample_runtime (VDict (guild_payload (VInt 5))) 0%nat
    = inl AttributeError /\
  forall k, @Guild.__init__ sample_runtime (VDict (guild_payload (VInt 5))) 0%nat
            <> inl (KeyError k).
Proof.
  split; [apply guild_payload_json_object |].
  split; [reflexivity |]. intros k. discriminate.
Qed.

(** ** refresh *)

Definition refresh_request (u : User.t) (client_id client_secret : value) : Request :=
  {| req_route := {| method := "POST"; path := "/oauth2/token" |};
     req_data := Some (User.refresh_request_data client_id client_secret
                         (User.refresh_token u));
     req_headers := None |}.

Definition configured (u : User.t) (client_id client_secret : value) : Prop :=
  HTTPClient._state_info (User._http u) !! KStr "client_id" = Some client_id /\
  HTTPClient._state_info (User._http u) !! KStr "client_secret" = Some client_secret.

Lemma refresh_run (u : User.t) (log : list Request) (cid sec : value) :
  configured u cid sec ->
  User.refresh (u, log) =
    match HTTPClient.respond (User._http u) log (refresh_request u cid sec)
          ≫= TokenResponse.__init__ with
    | inl e => (inl e, (u, (log ++ [refresh_request u cid sec])%list))
    | inr tr => (inr tr, (User.with_acr u tr, (log ++ [refresh_request u cid sec])%list))
    end.
Proof.
  intros [Hcid Hsec].
  unfold User.refresh, HTTPClient.request, User.set_acr, set_self, get_self, lift,
    mbind at 1 2 3 4 5 6 7 8, M_bind. simpl.
  rewrite Hcid, Hsec. simpl.
  change (Build_Request _ _ _) with (refresh_request u cid sec).
  destruct (HTTPClient.respond _ _ _) as [e|resp]; [done |]. simpl.
  by destruct (TokenResponse.__init__ resp).
Qed.

Lemma refresh_unconfigured (u : User.t) (log : list Request) :
  HTTPClient._state_info (User._http u) !! KStr "client_id" = None \/
  HTTPClient._state_info (User._http u) !! KStr "client_secret" = None ->
  exists k, User.refresh (u, log) = (inl (KeyError k), (u, log)).
Proof.
  intros Hmiss.
  unfold User.refresh, get_self, lift, mbind, M_bind. simpl.
  destruct (_ !! KStr "client_id") as [cid|]; [| by eexists].
  destruct Hmiss as [? | ->]; [done |]. by eexists.
Qed.

(** C7.  When [refresh()] returns, what it returns is the [TokenResponse]
    built from the answer of the token endpoint to the refresh request, and the
    user is the same user with that object as its held credential: its
    [access_token] and [refresh_token] are those of the new response. *)
Theorem refresh_replaces_token (u u' : User.t) (log log' : list Request)
    (tr : TokenResponse.t) :
  User.refresh (u, log) = (inr tr, (u', log')) ->
  exists cid sec resp,
    configured u cid sec /\
    log' = (log ++ [refresh_request u cid sec])%list /\
    HTTPClient.respond (User._http u) log (refresh_request u cid sec) = inr resp /\
    TokenResponse.__init__ resp = inr tr /\
    u' = User.with_acr u tr /\
    User._acr u' = tr /\
    User.access_token u' = TokenResponse.access_token tr /\
    User.refresh_token u' = TokenResponse.refresh_token tr.
Proof.
  intros Hrun.
  destruct (HTTPClient._state_info (User._http u) !! KStr "client_id") as [cid|] eqn:Hcid;
    [| destruct (refresh_unconfigured u log (or_introl Hcid)) as [k Hk]; congruence].
  destruct (HTTPClient._state_info (User._http u) !! KStr "client_secret") as [sec|] eqn:Hsec;
    [| destruct (refresh_unconfigured u log (or_intror Hsec)) as [k Hk]; congruence].
  rewrite (refresh_run u log cid sec (conj Hcid Hsec)) in Hrun.
  destruct (HTTPClient.respond _ _ _) as [e|resp] eqn:Hresp; [discriminate |].
  simpl in Hrun. destruct (TokenResponse.__init__ resp) as [e|tr'] eqn:Htr; [discriminate |].
  injection Hrun as <- <- <-.
  exists cid, sec, resp. by repeat split.
Qed.

Lemma refresh_replaces_token_witness :
  exists cid sec resp,
    configured refreshing_user cid sec /\
    [refresh_request refreshing_user (VInt 123) (VStr "s")]
      = ([] ++ [refresh_request refreshing_user cid sec])%list /\
    HTTPClient.respond (User._http refreshing_user) []
      (refresh_request refreshing_user cid sec) = inr resp /\
    TokenResponse.__init__ resp = inr (sample_token "t1" "r1") /\
    User.with_acr refreshing_user (sample_token "t1" "r1")
      = User.with_acr refreshing_user (sample_token "t1" "r1") /\
    User._acr (User.with_acr refreshing_user (sample_token "t1" "r1"))
      = sample_token "t1" "r1" /\
    User.access_token (User.with_acr refreshing_user (sample_token "t1" "r1"))
      = TokenResponse.access_token (sample_token "t1" "r1") /\
    User.refresh_token (User.with_acr refreshing_user (sample_token "t1" "r1"))
      = TokenResponse.refresh_token (sample_token "t1" "r1").
Proof.
  apply (refresh_replaces_token refreshing_user _ [] _ (sample_token "t1" "r1")).
  reflexivity.
Defined.

(** C10.  When the transport raises on the request, [refresh()] and
    [fetch_guilds(refresh=True)] pass the exception on and leave the user as it
    was: same held [TokenResponse], same guild cache.  Only the log of requests
    has grown by the one that failed. *)
Theorem transport_error_keeps_user `{Runtime} (this : object_ref) (u : User.t)
    (log : list Request) (e : exn) :
  (forall cid sec,
      configured u cid sec ->
      HTTPClient.respond (User._http u) log (refresh_request u cid sec) = inl e ->
      User.refresh (u, log) = (inl e, (u, (log ++ [refresh_request u cid sec])%list))) /\
  (HTTPClient.respond (User._http u) log (guilds_request u) = inl e ->
      User.fetch_guilds this true (u, log)
      = (inl e, (u, (log ++ [guilds_request u])%list))).
Proof.
  split.
  - intros cid sec Hconf Hresp. rewrite (refresh_run u log cid sec Hconf).
    by rewrite Hresp.
  - intros Hresp. rewrite fetch_guilds_run by auto. by rewrite Hresp.
Qed.

Lemma transport_error_keeps_user_witness :
  User.refresh (sample_user (inl (HTTPException AuthError)) [sample_guild], [])
    = (inl (HTTPException AuthError),
       (sample_user (inl (HTTPException AuthError)) [sample_guild],
        [refresh_request (sample_user (inl (HTTPException AuthError)) [sample_guild])
           (VInt 123) (VStr "s")])) /\
  @User.fetch_guilds sample_runtime 0%nat true
      (sample_user (inl (HTTPException AuthError)) [sample_guild], [])
    = (inl (HTTPException AuthError),
       (sample_user (inl (HTTPException AuthError)) [sample_guild],
        [@guilds_request sample_runtime
           (sample_user (inl (HTTPException AuthError)) [sample_guild])])).
Proof.
  pose proof (@transport_error_keeps_user sample_runtime 0%nat
                (sample_user (inl (HTTPException AuthError)) [sample_guild]) []
                (HTTPException AuthError)) as [Hrefresh Hfetch].
  split.
  - exact (Hrefresh (VInt 123) (VStr "s") (conj eq_refl eq_refl) eq_refl).
  - exact (Hfetch eq_refl).
Defined.

(** ** The authorization URL *)

Lemma append_assoc (a b c : string) : (a +:+ b) +:+ c = a +:+ b +:+ c.
Proof.
  induction a as [|x a IH]; [done |].
  change (String x ((a +:+ b) +:+ c) = String x (a +:+ b +:+ c)). by rewrite IH.
Qed.

Lemma append_nil_r (a : string) : a +:+ "" = a.
Proof.
  induction a as [|x a IH]; [done |].
  change (String x (a +:+ "") = String x a). by rewrite IH.
Qed.

(** The query parameter a call adds for an optional argument: none when the
    argument is left out or is the empty string. *)
Definition query (name : string) (arg : option string) : string :=
  match arg with
  | Some (String _ _ as s) => "&" +:+ name +:+ "=" +:+ s
  | Some EmptyString | None => ""
  end.

Definition contains (needle hay : string) : Prop :=
  exists pre post, hay = pre +:+ needle +:+ post.

Lemma auth_query (c : OAuth2Client.t) (state prompt : option string) :
  OAuth2Client.auth c state prompt
  = OAuth2Client.auth c None None +:+ query "state" state +:+ query "prompt" prompt.
Proof.
  unfold OAuth2Client.auth. cbn [OAuth2Client.given]. cbv zeta.
  set (base := DISCORD_URL +:+ _).
  destruct state as [[|x s]|], prompt as [[|y p]|];
    cbn [OAuth2Client.given py_truthy String.eqb negb query OAuth2Client.str_of_option];
    rewrite ?append_assoc, ?append_nil_r; try done.
Qed.

(** C8 (as the code has it).  [auth] is a function of the client and its two
    arguments and touches no transport; the URL is the one of the call without
    arguments, followed by [&state=...] when a state that is not empty is
    given, then by [&prompt=...] when a prompt that is not empty is given; an
    empty string adds nothing.  For the client of the scenario and the state
    ["xyz"] it is the URL written out below. *)
Theorem auth_adds_given_parameters :
  (forall (c : OAuth2Client.t) (state prompt : option string),
      OAuth2Client.auth c state prompt
      = OAuth2Client.auth c None None +:+ query "state" state +:+ query "prompt" prompt) /\
  (forall (fresh : HTTPClient.t),
      OAuth2Client.auth
        (OAuth2Client.__init__ 123 "s" "https://a.test/cb" (Some ["identify"; "guilds"]) fresh)
        (Some "xyz") None
      = "https://discord.com/api/oauth2/authorize?client_id=123&redirect_uri=https://a.test/cb&scope=identify guilds&response_type=code&state=xyz").
Proof.
  split; [apply auth_query | reflexivity].
Qed.

(** C8 as worded fails on the empty string: a state that is supplied but empty
    adds no [state] parameter. *)
Lemma empty_state_adds_nothing :
  OAuth2Client.auth (sample_client (inl (HTTPException TransportError))) (Some "") None
    = OAuth2Client.auth (sample_client (inl (HTTPException TransportError))) None None /\
  OAuth2Client.auth (sample_client (inl (HTTPException TransportError))) (Some "") None
    <> OAuth2Client.auth (sample_client (inl (HTTPException TransportError))) None None
       +:+ "&state=" +:+ "".
Proof.
  split; [reflexivity | discriminate].
Qed.

(** C9.  A client built without scopes still puts a scope segment in every
    URL: [scope=None], between the redirect URI and the response type. *)
Theorem auth_scope_always_present (client_id : Z) (client_secret redirect_uri : string)
    (fresh : HTTPClient.t) (state prompt : option string) :
  OAuth2Client.auth
    (OAuth2Client.__init__ client_id client_secret redirect_uri None fresh) state prompt
  = "https://discord.com/api/oauth2/authorize?client_id=" +:+ str_of_Z client_id
    +:+ "&redirect_uri=" +:+ redirect_uri +:+ "&scope=None&response_type=code"
    +:+ query "state" state +:+ query "prompt" prompt
  /\ contains "&scope=None&"
       (OAuth2Client.auth
          (OAuth2Client.__init__ client_id client_secret redirect_uri None fresh)
          state prompt).
Proof.
  assert (OAuth2Client.auth
            (OAuth2Client.__init__ client_id client_secret redirect_uri None fresh)
            state prompt
          = "https://discord.com/api/oauth2/authorize?client_id=" +:+ str_of_Z client_id
            +:+ "&redirect_uri=" +:+ redirect_uri +:+ "&scope=None&response_type=code"
            +:+ query "state" state +:+ query "prompt" prompt) as Hurl.
  { rewrite auth_query. unfold OAuth2Client.auth, DISCORD_URL.
    cbn [OAuth2Client.given OAuth2Client.__init__ OAuth2Client._id
           OAuth2Client._redirect OAuth2Client._scopes OAuth2Client.str_of_option].
    cbv zeta. rewrite !append_assoc. reflexivity. }
  split; [exact Hurl |].
  exists ("https://discord.com/api/oauth2/authorize?client_id=" +:+ str_of_Z client_id
          +:+ "&redirect_uri=" +:+ redirect_uri),
    ("response_type=code" +:+ query "state" state +:+ query "prompt" prompt).
  rewrite Hurl, !append_assoc. reflexivity.
Qed.

(** * Further properties of the code *)

(** ** Constructors *)

(** The first of the required fields that [d] lacks, in the order the
    constructor reads them. *)
Definition first_missing (d : dict) : option string :=
  List.find (fun f => match d !! KStr f with None => true | Some _ => false end)
    required_fields.

Lemma getitem_dict (d : dict) (k : key) :
  py_getitem (VDict d) k =
    match d !! k with Some x => inr x | None => inl (KeyError k) end.
Proof. done. Qed.

(** X1.  [TokenResponse] refuses whatever is not a dictionary with a
    [TypeError], and a dictionary with the [KeyError] of the first required
    field it lacks, in the order [access_token], [token_type], [expires_in],
    [refresh_token], [scope]; any other dictionary is accepted, its five
    fields read from the payload and everything else in it ignored. *)
Theorem TokenResponse_init_cases (v : value) :
  TokenResponse.__init__ v =
    match v with
    | VDict d =>
        match first_missing d with
        | Some f => inl (KeyError (KStr f))
        | None =>
            inr (TokenResponse.mk v
                   (default VNone (d !! KStr "access_token"))
                   (default VNone (d !! KStr "token_type"))
                   (default VNone (d !! KStr "expires_in"))
                   (default VNone (d !! KStr "refresh_token"))
                   (default VNone (d !! KStr "scope")))
        end
    | _ => inl TypeError
    end.
Proof.
  destruct v as [|b|n|s|l|l|d]; try done.
  unfold TokenResponse.__init__, first_missing, required_fields.
  rewrite !getitem_dict. cbn [List.find].
  destruct (d !! KStr "access_token"); [| done].
  destruct (d !! KStr "token_type"); [| done].
  destruct (d !! KStr "expires_in"); [| done].
  destruct (d !! KStr "refresh_token"); [| done].
  by destruct (d !! KStr "scope").
Qed.

Definition user_keys : list string := ["avatar"; "id"; "username"; "discriminator"].

(** X2.  Given a [TokenResponse], [User] accepts a dictionary exactly when it
    holds the four keys [avatar], [id], [username] and [discriminator] and its
    avatar is false or a string.  The user then keeps the payload, the
    transport and the credential it was given, reads [mfa_enabled], [email]
    and [verified] as [None] when they are missing, and starts with an empty
    guild cache. *)
Theorem User_init_accepts `{Runtime} (http : HTTPClient.t) (d : dict)
    (tr : TokenResponse.t) :
  (succeeds (User.__init__ http (VDict d) (inl tr)) = true <->
     (forall k, k ∈ user_keys -> is_Some (d !! KStr k)) /\
     icon_usable (default VNone (d !! KStr "avatar")) = true) /\
  (forall u,
      User.__init__ http (VDict d) (inl tr) = inr u ->
      User.json u = VDict d /\ User._http u = http /\ User._acr u = tr /\
      d !! KStr "id" = Some (User.id u) /\
      d !! KStr "username" = Some (User.name u) /\
      d !! KStr "discriminator" = Some (User.discriminator u) /\
      User.mfa_enabled u = default VNone (d !! KStr "mfa_enabled") /\
      User.email u = default VNone (d !! KStr "email") /\
      User.verified u = default VNone (d !! KStr "verified") /\
      User.guilds u = []).
Proof.
  assert (forall P : string -> Prop,
             (forall k, k ∈ user_keys -> P k) <->
             P "avatar" /\ P "id" /\ P "username" /\ P "discriminator") as Hkeys.
  { intros P. unfold user_keys. split.
    - intros HP. repeat split; apply HP; repeat constructor.
    - intros (H1 & H2 & H3 & H4) k Hk.
      repeat (apply elem_of_cons in Hk as [-> | Hk]; [assumption |]).
      by apply elem_of_nil in Hk. }
  unfold User.__init__. cbn [mbind result_bind mret result_ret].
  rewrite !getitem_dict. split.
  - rewrite Hkeys.
    destruct (d !! KStr "avatar") as [h|] eqn:Eh; cbn [default from_option id]; simpl.
    2: { split; [discriminate | intros [([? ?] & _) _]; discriminate]. }
    rewrite <- asset_format_usable.
    destruct (asset_format h) as [e|fmt]; simpl.
    { split; [discriminate | intros [_ ?]; discriminate]. }
    destruct (d !! KStr "id") as [i|]; simpl.
    2: { split; [discriminate | intros [(_ & [? ?] & _) _]; discriminate]. }
    destruct (d !! KStr "username") as [nm|]; simpl.
    2: { split; [discriminate | intros [(_ & _ & [? ?] & _) _]; discriminate]. }
    destruct (d !! KStr "discriminator") as [dc|]; simpl.
    2: { split; [discriminate | intros [(_ & _ & _ & [? ?]) _]; discriminate]. }
    split; [| done]. intros _. by repeat split; eexists.
  - intros u Hu.
    destruct (d !! KStr "avatar") as [h|]; simpl in Hu; [| discriminate].
    destruct (asset_format h) as [e|fmt]; simpl in Hu; [discriminate |].
    destruct (d !! KStr "id") as [i|]; simpl in Hu; [| discriminate].
    destruct (d !! KStr "username") as [nm|]; simpl in Hu; [| discriminate].
    destruct (d !! KStr "discriminator") as [dc|]; simpl in Hu; [| discriminate].
    injection Hu as <-. by repeat split.
Qed.

Lemma User_init_accepts_witness :
  exists u,
    @User.__init__ sample_runtime (fixed_transport (inr VNone))
      (VDict (user_payload (VStr "a_abc123"))) (inl (sample_token "t0" "r0")) = inr u /\
    User.mfa_enabled u = VNone /\ User.email u = VNone /\ User.verified u = VNone /\
    User.guilds u = [].
Proof.
  eexists. split; [reflexivity |].
  pose proof (proj2 (@User_init_accepts sample_runtime (fixed_transport (inr VNone))
                       (user_payload (VStr "a_abc123")) (sample_token "t0" "r0"))
                _ eq_refl) as (_ & _ & _ & _ & _ & _ & Hm & He & Hv & Hg).
  by repeat split.
Defined.

(** X3.  The [Guild] of guild.py reads every entry with [get], so a dictionary
    never makes it raise a [KeyError]: whenever the icon is false or a string
    and [int] accepts the ["id"] entry, [0] when it is missing, a guild is
    built, with [None] for a missing name, owner flag or feature list. *)
Theorem partial_Guild_init_defaults `{Runtime} (d : dict) (user : object_ref) :
  (forall k, guild.Guild.__init__ (VDict d) user <> inl (KeyError k)) /\
  (forall n,
      icon_usable (default VNone (d !! KStr "icon")) = true ->
      py_int (default (VInt 0) (d !! KStr "id")) = inr n ->
      exists g,
        guild.Guild.__init__ (VDict d) user = inr g /\
        guild.Guild.id g = n /\
        guild.Guild.user g = user /\
        guild.Guild.name g = default VNone (d !! KStr "name") /\
        guild.Guild.is_user_owner g = default VNone (d !! KStr "owner") /\
        guild.Guild.features g = default VNone (d !! KStr "features")).
Proof.
  unfold guild.Guild.__init__. simpl. split.
  - intros k.
    destruct (asset_format _) as [e|fmt] eqn:Efmt; simpl.
    { rewrite (asset_format_inl _ _ Efmt). discriminate. }
    destruct (default (VInt 0) (d !! KStr "id")) as [|b|m|s|l|l|e]; simpl;
      try discriminate.
    unfold py_int. destruct (int_of_str s); discriminate.
  - intros n Hicon Hid. rewrite <- asset_format_usable in Hicon.
    destruct (asset_format _) as [e|fmt]; [discriminate |]. simpl.
    rewrite Hid. simpl. eexists. by repeat split.
Qed.

Lemma partial_Guild_init_defaults_witness :
  exists g,
    @guild.Guild.__init__ sample_runtime (VDict ∅) 3%nat = inr g /\
    guild.Guild.id g = 0 /\
    guild.Guild.user g = 3%nat /\
    guild.Guild.name g = VNone /\
    guild.Guild.is_user_owner g = VNone /\
    guild.Guild.features g = VNone.
Proof.
  exact (proj2 (@partial_Guild_init_defaults sample_runtime ∅ 3%nat) 0 eq_refl eq_refl).
Defined.

(** ** The guild cache, continued *)

(** An item of a decoded guild list: if it is a dictionary, its keys are
    strings. *)
Definition decoded_item (x : value) : Prop :=
  forall d, x = VDict d -> json_object d.

Lemma Guild_init_decoded_item `{Runtime} (x : value) (this : object_ref) :
  decoded_item x -> exists e, Guild.__init__ x this = inl e.
Proof.
  intros Hx. destruct x as [|b|n|s|l|l|d]; try (by eexists).
  rewrite (Guild_init_json_object d this (Hx d eq_refl)). by eexists.
Qed.

Lemma py_iter_dict_decoded (d : dict) : Forall decoded_item (key_value <$> (map_to_list d).*1).
Proof.
  apply Forall_fmap, Forall_forall. intros k _ e. by destruct k.
Qed.

Lemma chars_decoded (s : string) : Forall decoded_item (chars s).
Proof.
  induction s as [|c s IH]; simpl; constructor; [| done]. intros d. discriminate.
Qed.

(** X4.  Once the transport has answered, [fetch_guilds] leaves the cache
    empty, whatever the decoded answer and whether the call returns or raises;
    and when it returns, the answer held no item and the result is the empty
    list.  The guilds cached before are gone in every case. *)
Theorem fetch_guilds_empties_cache `{Runtime} (this : object_ref) (refresh : bool)
    (u : User.t) (log : list Request) (resp : value) :
  refresh = true \/ User.guilds u = [] ->
  HTTPClient.respond (User._http u) log (guilds_request u) = inr resp ->
  (forall l, resp = VList l \/ resp = VTuple l -> Forall decoded_item l) ->
  (User.fetch_guilds this refresh (u, log)).2
    = (User.with_guilds u [], (log ++ [guilds_request u])%list) /\
  (forall gs,
      (User.fetch_guilds this refresh (u, log)).1 = inr gs ->
      gs = [] /\ py_iter resp = inr []).
Proof.
  intros Hgo Hresp Hitems.
  rewrite fetch_guilds_run by done. rewrite Hresp.
  unfold refill. cbn [fst snd].
  destruct (py_iter resp) as [e|items] eqn:Eiter; [by split |].
  assert (Forall decoded_item items) as Hok.
  { destruct resp as [|b|n|s|l|l|d]; try discriminate; injection Eiter as <-.
    - apply chars_decoded.
    - apply Hitems. by left.
    - apply Hitems. by right.
    - apply py_iter_dict_decoded. }
  destruct items as [|x rest].
  - simpl. split; [done |]. by intros gs [= <-].
  - apply Forall_cons in Hok as [Hx _].
    destruct (Guild_init_decoded_item x this Hx) as [e He].
    rewrite (fill_guilds_first_fails this x rest e _ He). by split.
Qed.

Lemma fetch_guilds_empties_cache_witness :
  (@User.fetch_guilds sample_runtime 0%nat true
     (sample_user (inr (VList [])) [sample_guild], [])).2
    = (sample_user (inr (VList [])) [],
       [@guilds_request sample_runtime (sample_user (inr (VList [])) [sample_guild])]) /\
  (forall gs,
      (@User.fetch_guilds sample_runtime 0%nat true
         (sample_user (inr (VList [])) [sample_guild], [])).1 = inr gs ->
      gs = [] /\ py_iter (VList []) = inr []).
Proof.
  apply (@fetch_guilds_empties_cache sample_runtime 0%nat true
           (sample_user (inr (VList [])) [sample_guild]) [] (VList [])).
  - by left.
  - reflexivity.
  - intros l [[= <-] | [=]]. constructor.
Defined.

(** ** The client *)

Definition config_keys : list key :=
  [KStr "client_id"; KStr "client_secret"; KStr "redirect_uri"; KStr "scopes"].

Lemma OAuth2Client_init_config (client_id : Z) (client_secret redirect_uri : string)
    (scopes : option (list string)) (fresh : HTTPClient.t) :
  let info := HTTPClient._state_info
                (OAuth2Client.http
                   (OAuth2Client.__init__ client_id client_secret redirect_uri scopes fresh)) in
  info !! KStr "client_id" = Some (VInt client_id) /\
  info !! KStr "client_secret" = Some (VStr client_secret).
Proof.
  split; apply lookup_union_Some_l; reflexivity.
Qed.

(** X5.  A new client records its configuration in the transport it creates:
    [client_id], [client_secret], [redirect_uri] and [scopes] (the scopes
    joined by single spaces, or [None]) replace whatever the transport held
    under these keys, every other entry of the transport is kept, and the
    client keeps the same values in its own attributes. *)
Theorem OAuth2Client_init_records_config (client_id : Z)
    (client_secret redirect_uri : string) (scopes : option (list string))
    (fresh : HTTPClient.t) :
  let c := OAuth2Client.__init__ client_id client_secret redirect_uri scopes fresh in
  let info := HTTPClient._state_info (OAuth2Client.http c) in
  OAuth2Client._id c = client_id /\
  OAuth2Client._auth c = client_secret /\
  OAuth2Client._redirect c = redirect_uri /\
  OAuth2Client._scopes c = String.concat " " <$> scopes /\
  info !! KStr "client_id" = Some (VInt client_id) /\
  info !! KStr "client_secret" = Some (VStr client_secret) /\
  info !! KStr "redirect_uri" = Some (VStr redirect_uri) /\
  info !! KStr "scopes"
    = Some (match scopes with
            | Some l => VStr (String.concat " " l)
            | None => VNone
            end) /\
  (forall k, k ∉ config_keys -> info !! k = HTTPClient._state_info fresh !! k) /\
  HTTPClient.respond (OAuth2Client.http c) = HTTPClient.respond fresh.
Proof.
  intros c info. subst c info. unfold OAuth2Client.__init__.
  cbn [OAuth2Client._id OAuth2Client._auth OAuth2Client._redirect OAuth2Client._scopes
         OAuth2Client.http HTTPClient._state_info HTTPClient.respond].
  split; [done |]. split; [done |]. split; [done |].
  split; [by destruct scopes |].
  split; [apply lookup_union_Some_l; reflexivity |].
  split; [apply lookup_union_Some_l; reflexivity |].
  split; [apply lookup_union_Some_l; reflexivity |].
  split; [apply lookup_union_Some_l; by destruct scopes |].
  split; [| done].
  intros k Hk. apply lookup_union_r. unfold config_keys in Hk.
  rewrite !not_elem_of_cons in Hk. destruct Hk as (H1 & H2 & H3 & H4 & _).
  cbn [list_to_map foldr uncurry Datatypes.uncurry].
  rewrite !lookup_insert_ne by done. apply lookup_empty.
Qed.

Lemma User_init_keeps `{Runtime} (http : HTTPClient.t) (data : value)
    (tr : TokenResponse.t) (u : User.t) :
  User.__init__ http data (inl tr) = inr u ->
  User._http u = http /\ User._acr u = tr /\ User._data u = data /\ User.guilds u = [].
Proof.
  intros Hu. unfold User.__init__ in Hu. simpl in Hu.
  next_stmt Hu h Eh. next_stmt Hu fmt Efmt.
  next_stmt Hu i Ei. next_stmt Hu nm Enm. next_stmt Hu dc Edc.
  next_stmt Hu mfa Emfa. next_stmt Hu em Eem. next_stmt Hu vf Evf.
  by injection Hu as <-.
Qed.

Lemma identify_run `{Runtime} (c : OAuth2Client.t) (tr : TokenResponse.t)
    (log : list Request) :
  OAuth2Client.identify (inl tr) (c, log) =
    (HTTPClient.respond (OAuth2Client.http c) log
       (identify_request (py_str (TokenResponse.access_token tr)))
     ≫= (fun resp => User.__init__ (OAuth2Client.http c) resp (inl tr)),
     (c, (log ++ [identify_request (py_str (TokenResponse.access_token tr))])%list)).
Proof.
  unfold OAuth2Client.identify, HTTPClient.request, lift, get_self, mbind at 1 2, M_bind.
  simpl.
  change (Build_Request _ _ _)
    with (identify_request (py_str (TokenResponse.access_token tr))).
  by destruct (HTTPClient.respond _ _ _).
Qed.

(** X6.  A user that [identify] returns for a client built by the constructor
    holds the token it was identified with and the client's transport, so its
    [refresh()] finds the client id and secret: it never fails for want of
    configuration, and sends the [refresh_token] grant with the client's id
    and secret and the refresh token of that credential. *)
Theorem identified_user_can_refresh `{Runtime} (client_id : Z)
    (client_secret redirect_uri : string) (scopes : option (list string))
    (fresh : HTTPClient.t) (tr : TokenResponse.t) (log : list Request)
    (u : User.t) (st : OAuth2Client.t * list Request) :
  let c := OAuth2Client.__init__ client_id client_secret redirect_uri scopes fresh in
  OAuth2Client.identify (inl tr) (c, log) = (inr u, st) ->
  st.1 = c /\
  User._acr u = tr /\
  User.guilds u = [] /\
  configured u (VInt client_id) (VStr client_secret) /\
  forall log',
    let rq := refresh_request u (VInt client_id) (VStr client_secret) in
    req_data rq
      = Some (list_to_map [ (KStr "client_id", VInt client_id);
                            (KStr "client_secret", VStr client_secret);
                            (KStr "grant_type", VStr "refresh_token");
                            (KStr "refresh_token", TokenResponse.refresh_token tr) ]) /\
    User.refresh (u, log') =
      match HTTPClient.respond fresh log' rq ≫= TokenResponse.__init__ with
      | inl e => (inl e, (u, (log' ++ [rq])%list))
      | inr tr' => (inr tr', (User.with_acr u tr', (log' ++ [rq])%list))
      end.
Proof.
  intros c Hid. rewrite identify_run in Hid. injection Hid as Hu <-.
  destruct (HTTPClient.respond _ _ _) as [e|resp]; [discriminate |]. simpl in Hu.
  destruct (User_init_keeps _ _ _ _ Hu) as (Hhttp & Hacr & _ & Hguilds).
  assert (configured u (VInt client_id) (VStr client_secret)) as Hconf.
  { unfold configured. rewrite Hhttp.
    pose proof (OAuth2Client_init_config client_id client_secret redirect_uri scopes fresh)
      as (Hcid & Hsec). by split. }
  do 4 (split; [done |]). intros log' rq. split.
  - unfold rq, refresh_request, User.refresh_request_data, User.refresh_token.
    cbn [req_data]. by rewrite Hacr.
  - rewrite (refresh_run u log' _ _ Hconf). by rewrite Hhttp.
Qed.

Lemma identified_user_can_refresh_witness :
  @OAuth2Client.identify sample_runtime (inl (sample_token "old" "r0"))
    (sample_client (inr (VDict (user_payload VNone))), [])
    = (inr (sample_user (inr (VDict (user_payload VNone))) []),
       (sample_client (inr (VDict (user_payload VNone))),
        [identify_request "old"])) /\
  configured (sample_user (inr (VDict (user_payload VNone))) []) (VInt 123) (VStr "s").
Proof.
  assert (@OAuth2Client.identify sample_runtime (inl (sample_token "old" "r0"))
            (sample_client (inr (VDict (user_payload VNone))), [])
          = (inr (sample_user (inr (VDict (user_payload VNone))) []),
             (sample_client (inr (VDict (user_payload VNone))),
              [identify_request "old"]))) as Hid by reflexivity.
  split; [exact Hid |].
  exact (proj1 (proj2 (proj2 (proj2
           (@identified_user_can_refresh sample_runtime 123 "s" "https://a.test/cb"
              (Some ["identify"; "guilds"])
              (fixed_transport (inr (VDict (user_payload VNone))))
              (sample_token "old" "r0") [] _ _ Hid))))).
Defined.

Definition client_refresh_request (c : OAuth2Client.t) (refresh_token : string) : Request :=
  {| req_route := {| method := "POST"; path := "/oauth2/token" |};
     req_data := Some (list_to_map
                         [ (KStr "client_id", VInt (OAuth2Client._id c));
                           (KStr "client_secret", VStr (OAuth2Client._auth c));
                           (KStr "grant_type", VStr "refresh_token");
                           (KStr "refresh_token", VStr refresh_token) ]);
     req_headers := None |}.

Lemma client_refresh_token_run (c : OAuth2Client.t) (s : string) (log : list Request) :
  OAuth2Client.refresh_token s (c, log) =
    (HTTPClient.respond (OAuth2Client.http c) log (client_refresh_request c s),
     (c, (log ++ [client_refresh_request c s])%list)).
Proof. done. Qed.

(** X7.  For a user that holds the transport of a client built by the
    constructor, [User.refresh()] is the client's [refresh_token] called with
    the user's refresh token, followed by the construction of a
    [TokenResponse]: both hand the same request to the transport, and the
    client's method returns the decoded answer as it is, where the user's
    raises if the answer is no token payload. *)
Theorem User_refresh_is_client_refresh_token (client_id : Z)
    (client_secret redirect_uri : string) (scopes : option (list string))
    (fresh : HTTPClient.t) (u : User.t) (s : string) (log : list Request) :
  let c := OAuth2Client.__init__ client_id client_secret redirect_uri scopes fresh in
  User._http u = OAuth2Client.http c ->
  User.refresh_token u = VStr s ->
  (User.refresh (u, log)).2.2 = (OAuth2Client.refresh_token s (c, log)).2.2 /\
  (OAuth2Client.refresh_token s (c, log)).2.1 = c /\
  (User.refresh (u, log)).1
    = (OAuth2Client.refresh_token s (c, log)).1 ≫= TokenResponse.__init__ /\
  (User.refresh (u, log)).2.1
    = match (User.refresh (u, log)).1 with
      | inr tr => User.with_acr u tr
      | inl _ => u
      end.
Proof.
  intros c Hhttp Htok.
  assert (configured u (VInt client_id) (VStr client_secret)) as Hconf.
  { unfold configured. rewrite Hhttp.
    apply (OAuth2Client_init_config client_id client_secret redirect_uri scopes fresh). }
  rewrite (refresh_run u log _ _ Hconf), client_refresh_token_run.
  assert (refresh_request u (VInt client_id) (VStr client_secret)
          = client_refresh_request c s) as ->.
  { unfold refresh_request, client_refresh_request, User.refresh_request_data.
    by rewrite Htok. }
  rewrite Hhttp. cbn [fst snd].
  by destruct (HTTPClient.respond _ _ _ ≫= TokenResponse.__init__).
Qed.

Lemma User_refresh_is_client_refresh_token_witness :
  (User.refresh (refreshing_user, [])).2.2
    = (OAuth2Client.refresh_token "r0"
         (sample_client (inr (VDict (token_payload "t1" "r1"))), [])).2.2 /\
  (User.refresh (refreshing_user, [])).1
    = (OAuth2Client.refresh_token "r0"
         (sample_client (inr (VDict (token_payload "t1" "r1"))), [])).1
      ≫= TokenResponse.__init__.
Proof.
  pose proof (User_refresh_is_client_refresh_token 123 "s" "https://a.test/cb"
                (Some ["identify"; "guilds"])
                (fixed_transport (inr (VDict (token_payload "t1" "r1"))))
                refreshing_user "r0" [] eq_refl eq_refl) as (Hlog & _ & Hres & _).
  by split.
Defined.

Definition exchange_request (c : OAuth2Client.t) (code : string) : Request :=
  {| req_route := {| method := "POST"; path := "/oauth2/token" |};
     req_data := Some (OAuth2Client.token_request_data c code);
     req_headers := None |}.

(** X8.  [exchange_code] posts the [authorization_code] grant with the client's
    id, secret and redirect URI and the code; the body has a [scope] entry
    exactly when the client was given scopes, an empty list included (the
    entry is then the empty string).  The answer goes through [TokenResponse],
    and the client is left as it was. *)
Theorem exchange_code_request_body (client_id : Z) (client_secret redirect_uri : string)
    (scopes : option (list string)) (fresh : HTTPClient.t) (code : string)
    (log : list Request) :
  let c := OAuth2Client.__init__ client_id client_secret redirect_uri scopes fresh in
  let body := OAuth2Client.token_request_data c code in
  OAuth2Client.exchange_code code (c, log)
    = (HTTPClient.respond fresh log (exchange_request c code) ≫= TokenResponse.__init__,
       (c, (log ++ [exchange_request c code])%list)) /\
  body !! KStr "client_id" = Some (VInt client_id) /\
  body !! KStr "client_secret" = Some (VStr client_secret) /\
  body !! KStr "grant_type" = Some (VStr "authorization_code") /\
  body !! KStr "code" = Some (VStr code) /\
  body !! KStr "redirect_uri" = Some (VStr redirect_uri) /\
  body !! KStr "scope" = (fun l => VStr (String.concat " " l)) <$> scopes.
Proof.
  intros c body. split.
  - unfold OAuth2Client.exchange_code, HTTPClient.request, lift, get_self,
      mbind at 1 2, M_bind.
    cbn [fst snd]. change (Build_Request _ _ _) with (exchange_request c code).
    change (HTTPClient.respond (OAuth2Client.http c)) with (HTTPClient.respond fresh).
    by destruct (HTTPClient.respond fresh _ _).
  - subst body c. unfold OAuth2Client.token_request_data, OAuth2Client.__init__.
    cbn [OAuth2Client._id OAuth2Client._auth OAuth2Client._redirect OAuth2Client._scopes].
    destruct scopes as [l|]; repeat split; reflexivity.
Qed.

(** X9.  The client's [guilds] needs a token that can be subscripted with
    ["access_token"]: otherwise it raises before any request is made.  With
    the access token of a user on the client's transport it hands the
    transport the very request of the user's [fetch_guilds], and returns the
    decoded answer as it is. *)
Theorem client_guilds_is_raw_fetch `{Runtime} (c : OAuth2Client.t) (token : value)
    (log : list Request) :
  (forall e,
      py_getitem token (KStr "access_token") = inl e ->
      OAuth2Client.guilds token (c, log) = (inl e, (c, log))) /\
  (forall (u : User.t) (this : object_ref),
      py_getitem token (KStr "access_token") = inr (User.access_token u) ->
      User._http u = OAuth2Client.http c ->
      OAuth2Client.guilds token (c, log)
        = (HTTPClient.respond (User._http u) log (guilds_request u),
           (c, (log ++ [guilds_request u])%list)) /\
      (User.fetch_guilds this true (u, log)).2.2 = (log ++ [guilds_request u])%list).
Proof.
  split.
  - intros e He.
    unfold OAuth2Client.guilds, lift, get_self, mbind at 1 2, M_bind. cbn [fst snd].
    by rewrite He.
  - intros u this Htok Hhttp. split.
    + unfold OAuth2Client.guilds, HTTPClient.request, lift, get_self,
        mbind at 1 2, M_bind.
      cbn [fst snd]. rewrite Htok, <- Hhttp.
      by change (Build_Request _ _ _) with (guilds_request u).
    + rewrite fetch_guilds_run by auto.
      destruct (HTTPClient.respond _ _ _) as [e|resp]; [done |]. apply refill_log.
Qed.

Lemma client_guilds_is_raw_fetch_witness :
  @OAuth2Client.guilds sample_runtime (VDict ∅) (sample_client (inr (VList [])), [])
    = (inl (KeyError (KStr "access_token")), (sample_client (inr (VList [])), [])) /\
  @OAuth2Client.guilds sample_runtime (VDict (token_payload "old" "r0"))
      (sample_client (inr (VList [])), [])
    = (inr (VList []),
       (sample_client (inr (VList [])),
        [@guilds_request sample_runtime (sample_user (inr (VList [])) [])])).
Proof.
  split.
  - exact (proj1 (@client_guilds_is_raw_fetch sample_runtime
                    (sample_client (inr (VList []))) (VDict ∅) []) _ eq_refl).
  - exact (proj1 (proj2 (@client_guilds_is_raw_fetch sample_runtime
                           (sample_client (inr (VList [])))
                           (VDict (token_payload "old" "r0")) [])
                    (sample_user (inr (VList [])) []) 0%nat eq_refl eq_refl)).
Defined.

(** ** The authorization URL, continued *)

Lemma auth_plain (c : OAuth2Client.t) :
  OAuth2Client.auth c None None
  = "https://discord.com/api/oauth2/authorize?client_id=" +:+ str_of_Z (OAuth2Client._id c)
    +:+ "&redirect_uri=" +:+ OAuth2Client._redirect c
    +:+ "&scope=" +:+ OAuth2Client.str_of_option (OAuth2Client._scopes c)
    +:+ "&response_type=code".
Proof.
  unfold OAuth2Client.auth, DISCORD_URL. cbn [OAuth2Client.given]. cbv zeta.
  rewrite !append_assoc. reflexivity.
Qed.

(** X10.  For every client the constructor builds, the URL is the authorize
    endpoint followed by [client_id], [redirect_uri], [scope] (the scopes in
    the order given, joined by single spaces; nothing for an empty list; the
    word [None] without scopes), [response_type=code] and the optional
    parameters, every value put in as it is.  The client secret and the
    transport have no part in it. *)
Theorem auth_url_closed_form (client_id : Z) (client_secret redirect_uri : string)
    (scopes : option (list string)) (fresh : HTTPClient.t)
    (state prompt : option string) :
  OAuth2Client.auth
    (OAuth2Client.__init__ client_id client_secret redirect_uri scopes fresh) state prompt
  = "https://discord.com/api/oauth2/authorize?client_id=" +:+ str_of_Z client_id
    +:+ "&redirect_uri=" +:+ redirect_uri
    +:+ "&scope=" +:+ match scopes with
                      | Some l => String.concat " " l
                      | None => "None"
                      end
    +:+ "&response_type=code" +:+ query "state" state +:+ query "prompt" prompt
  /\ forall client_secret' fresh',
       OAuth2Client.auth
         (OAuth2Client.__init__ client_id client_secret redirect_uri scopes fresh)
         state prompt
       = OAuth2Client.auth
           (OAuth2Client.__init__ client_id client_secret' redirect_uri scopes fresh')
           state prompt.
Proof.
  assert (forall sec fr,
             OAuth2Client.auth (OAuth2Client.__init__ client_id sec redirect_uri scopes fr)
               state prompt
             = "https://discord.com/api/oauth2/authorize?client_id=" +:+ str_of_Z client_id
               +:+ "&redirect_uri=" +:+ redirect_uri
               +:+ "&scope=" +:+ match scopes with
                                 | Some l => String.concat " " l
                                 | None => "None"
                                 end
               +:+ "&response_type=code" +:+ query "state" state +:+ query "prompt" prompt)
    as Hform.
  { intros sec fr. rewrite auth_query, auth_plain.
    cbn [OAuth2Client.__init__ OAuth2Client._id OAuth2Client._redirect OAuth2Client._scopes].
    rewrite !append_assoc. by destruct scopes. }
  split; [apply Hform |]. intros sec' fr'. by rewrite !Hform.
Qed.

(** X11.  Nothing is escaped: a state that contains [&prompt=] gives the very
    URL of a call with that state cut there and the rest passed as prompt. *)
Theorem auth_state_not_escaped (c : OAuth2Client.t) (s p : string) :
  s <> "" -> p <> "" ->
  OAuth2Client.auth c (Some (s +:+ "&prompt=" +:+ p)) None
  = OAuth2Client.auth c (Some s) (Some p).
Proof.
  intros Hs Hp.
  rewrite (auth_query c (Some (s +:+ _)) None), (auth_query c (Some s) (Some p)).
  destruct s as [|x s]; [done |]. destruct p as [|y p]; [done |].
  change (String x s +:+ "&prompt=" +:+ String y p)
    with (String x (s +:+ "&prompt=" +:+ String y p)).
  cbn [query]. f_equal.
  change (String x (s +:+ "&prompt=" +:+ String y p))
    with (String x s +:+ "&prompt=" +:+ String y p).
  rewrite append_nil_r, !append_assoc. reflexivity.
Qed.

Lemma auth_state_not_escaped_witness :
  OAuth2Client.auth (sample_client (inr VNone)) (Some ("xyz" +:+ "&prompt=" +:+ "none")) None
  = OAuth2Client.auth (sample_client (inr VNone)) (Some "xyz") (Some "none").
Proof.
  apply (auth_state_not_escaped (sample_client (inr VNone)) "xyz" "none"); discriminate.
Defined.

(** ** Comparing and hashing *)

Lemma shiftr_22 (n : Z) : Z.shiftr n 22 = n / 4194304.
Proof. by rewrite Z.shiftr_div_pow2. Qed.

(** X12.  Two users compare by [id] alone: with ids that are strings, [==]
    holds exactly when the ids are the same string and [!=] exactly when they
    are not, whatever the names, avatars, credentials or guild caches. *)
Theorem User_eq_by_id (u v : User.t) (s t : string) :
  User.id u = VStr s -> User.id v = VStr t ->
  (DiscordObject.__eq__ u v = inr true <-> s = t) /\
  (DiscordObject.__ne__ u v = inr true <-> s <> t) /\
  DiscordObject.__eq__ u v = DiscordObject.__eq__ v u.
Proof.
  intros Hu Hv.
  unfold DiscordObject.__ne__, DiscordObject.__eq__, DiscordObject.attr_id, DiscordObject.User_id.
  simpl. rewrite Hu, Hv. simpl.
  rewrite (String.eqb_sym s t).
  destruct (String.eqb_spec t s) as [-> | Hne]; simpl.
  - split; [done |]. split; [| done]. split; [discriminate | done].
  - split; [split; [discriminate | congruence] |]. split; [| done].
    split; [congruence | done].
Qed.

Lemma User_eq_by_id_witness :
  (DiscordObject.__eq__ (sample_user (inr VNone) [])
     (sample_user (inl TypeError) [sample_guild]) = inr true <-> "42" = "42") /\
  (DiscordObject.__ne__ (sample_user (inr VNone) [])
     (sample_user (inl TypeError) [sample_guild]) = inr true <-> "42" <> "42") /\
  DiscordObject.__eq__ (sample_user (inr VNone) [])
    (sample_user (inl TypeError) [sample_guild])
  = DiscordObject.__eq__ (sample_user (inl TypeError) [sample_guild])
      (sample_user (inr VNone) []).
Proof.
  exact (User_eq_by_id (sample_user (inr VNone) [])
           (sample_user (inl TypeError) [sample_guild]) "42" "42" eq_refl eq_refl).
Defined.

(** X13.  [__hash__] shifts the id right by 22 bits, so it needs a number: a
    user whose id is a string, as in a decoded payload, cannot be hashed
    ([TypeError]), and a [TokenResponse], which has no [id], can be neither
    hashed nor compared ([AttributeError]).  Users with integer ids that
    compare equal have the same hash, the id divided by 2^22. *)
Theorem DiscordObject_hash_needs_integer_id :
  (forall (u : User.t) (s : string),
      User.id u = VStr s -> DiscordObject.__hash__ u = inl TypeError) /\
  (forall (tr : TokenResponse.t) (u : User.t),
      DiscordObject.__hash__ tr = inl AttributeError /\
      DiscordObject.__eq__ tr u = inl AttributeError /\
      DiscordObject.__eq__ u tr = inl AttributeError) /\
  (forall (u v : User.t) (n m : Z),
      User.id u = VInt n -> User.id v = VInt m ->
      DiscordObject.__hash__ u = inr (n / 4194304) /\
      (DiscordObject.__eq__ u v = inr true ->
       DiscordObject.__hash__ u = DiscordObject.__hash__ v)).
Proof.
  split; [| split].
  - intros u s Hu. unfold DiscordObject.__hash__, DiscordObject.attr_id, DiscordObject.User_id.
    simpl. by rewrite Hu.
  - intros tr u. by repeat split.
  - intros u v n m Hu Hv.
    unfold DiscordObject.__hash__, DiscordObject.__eq__, DiscordObject.attr_id, DiscordObject.User_id.
    simpl. rewrite Hu, Hv. simpl. unfold py_rshift. simpl. rewrite !shiftr_22.
    split; [done |]. intros [= Heq]. apply Z.eqb_eq in Heq. by subst.
Qed.

Lemma DiscordObject_hash_needs_integer_id_witness :
  DiscordObject.__hash__ (sample_user (inr VNone) []) = inl TypeError.
Proof.
  exact (proj1 DiscordObject_hash_needs_integer_id (sample_user (inr VNone) []) "42" eq_refl).
Defined.
